(** * DatasetForSAITS: the sample adapter of pypots/imputation/saits/data.py

    A shallow embedding of the dataset class that feeds the SAITS model
    with artificially corrupted time series, together with the
    collaborators it calls: torch tensors (indexing, dtype casts), the
    h5py file it reads lazily, and the [mcar] corruption routine of
    pycorruptor, which is kept abstract. *)

From Stdlib Require Import ZArith Floats.SpecFloat.
From stdpp Require Import base option list gmap strings.

Open Scope Z_scope.

(** ** Python exceptions and fallible results *)

Inductive exn :=
| IndexError | KeyError | TypeError | ValueError
| RuntimeError | OSError | AttributeError.

Inductive result (A : Type) :=
| Ok (a : A)
| Raise (e : exn).
Arguments Ok {A} a.
Arguments Raise {A} e.

#[global] Instance result_ret : MRet result := @Ok.
#[global] Instance result_bind : MBind result :=
  fun A B k r =>
    match r with
    | Ok a => k a
    | Raise e => Raise e
    end.

(** ** Array elements and element types *)

Inductive dtype := bool_ | int64 | float32 | float64.

#[global] Instance dtype_eq_dec : EqDecision dtype.
Proof. solve_decision. Defined.

Inductive scalar :=
| SBool (b : bool)
| SInt (z : Z)
| SFloat (f : spec_float).

(** Precision and infinity exponent of the two floating-point formats. *)
Definition prec32 : Z := 24.
Definition emax32 : Z := 128.
Definition prec64 : Z := 53.
Definition emax64 : Z := 1024.

(** Round a float to the format [(prec, emax)], to nearest even. *)
Definition round_float (prec emax : Z) (f : spec_float) : spec_float :=
  match f with
  | S754_finite s m e => binary_round prec emax s m e
  | _ => f
  end.

(** Integer part of a float, rounded toward zero; [None] for NaN and the
    infinities. *)
Definition float_trunc (f : spec_float) : option Z :=
  match f with
  | S754_zero _ => Some 0
  | S754_finite s m e =>
      let a := if 0 <=? e then Z.shiftl (Z.pos m) e else Z.shiftr (Z.pos m) (- e) in
      Some (if s then - a else a)
  | S754_infinity _ | S754_nan => None
  end.

Definition int64_min : Z := - 2 ^ 63.
Definition int64_max : Z := 2 ^ 63 - 1.

(** Two's-complement wrap-around into the int64 range. *)
Definition wrap64 (z : Z) : Z := (z + 2 ^ 63) mod 2 ^ 64 - 2 ^ 63.

Definition scalar_is_nan (v : scalar) : bool :=
  match v with
  | SFloat S754_nan => true
  | _ => false
  end.

Definition scalar_nonzero (v : scalar) : bool :=
  match v with
  | SBool b => b
  | SInt z => negb (z =? 0)
  | SFloat (S754_zero _) => false
  | SFloat _ => true
  end.

Definition float_of_Z (prec emax : Z) (z : Z) : spec_float :=
  binary_normalize prec emax z 0 false.

Definition scalar_to_float (prec emax : Z) (v : scalar) : scalar :=
  match v with
  | SBool b => SFloat (float_of_Z prec emax (if b then 1 else 0))
  | SInt z => SFloat (float_of_Z prec emax z)
  | SFloat f => SFloat (round_float prec emax f)
  end.

(** Conversion to int64.  A float outside the integers (NaN, infinity)
    converts to the "integer indefinite" value, as on x86-64. *)
Definition scalar_to_int64 (v : scalar) : scalar :=
  match v with
  | SBool b => SInt (if b then 1 else 0)
  | SInt z => SInt (wrap64 z)
  | SFloat f =>
      match float_trunc f with
      | Some z => if (int64_min <=? z) && (z <=? int64_max) then SInt z else SInt int64_min
      | None => SInt int64_min
      end
  end.

(** Element conversion performed by a dtype cast. *)
Definition convert (dt : dtype) (v : scalar) : scalar :=
  match dt with
  | bool_ => SBool (scalar_nonzero v)
  | int64 => scalar_to_int64 v
  | float32 => scalar_to_float prec32 emax32 v
  | float64 => scalar_to_float prec64 emax64 v
  end.

(** The values 0 and 1 of an element type. *)
Definition zero_of (dt : dtype) : scalar := convert dt (SInt 0).
Definition one_of (dt : dtype) : scalar := convert dt (SInt 1).

(** ** NumPy arrays, as h5py hands them out *)

Record ndarray := mk_ndarray {
  np_dtype : dtype;
  np_shape : list nat;
  np_data : list scalar   (* row-major *)
}.

(** Number of elements of one item along the first axis. *)
Definition numel (shape : list nat) : nat := foldr Nat.mul 1%nat shape.

(** Python index normalisation: a negative index counts from the end. *)
Definition normalize_index (i : Z) (n : nat) : option nat :=
  let j := if i <? 0 then i + Z.of_nat n else i in
  if (0 <=? j) && (j <? Z.of_nat n) then Some (Z.to_nat j) else None.

(** Row-major slice holding item [j] along the first axis. *)
Definition item_data (rest : list nat) (j : nat) (d : list scalar) : list scalar :=
  take (numel rest) (drop (j * numel rest) d).

(** [dataset[idx]] on an h5py dataset, read into a NumPy value.  A
    zero-dimensional result stands for a NumPy scalar. *)
Definition np_getitem (a : ndarray) (i : Z) : result ndarray :=
  match np_shape a with
  | [] => Raise ValueError
  | n :: rest =>
      match normalize_index i n with
      | Some j => Ok (mk_ndarray (np_dtype a) rest (item_data rest j (np_data a)))
      | None => Raise IndexError
      end
  end.

(** An open h5py file: a mapping from dataset names to their contents. *)
Abbreviation h5py_File := (gmap string ndarray).

(** ** Torch tensors *)

Module torch.

Record Tensor := mk_Tensor {
  dtype_of : dtype;
  shape : list nat;
  data : list scalar   (* row-major *)
}.

Definition long : dtype := int64.

(** [t[idx]]: select along the first axis. *)
Definition getitem (t : Tensor) (i : Z) : result Tensor :=
  match shape t with
  | [] => Raise IndexError
  | n :: rest =>
      match normalize_index i n with
      | Some j => Ok (mk_Tensor (dtype_of t) rest (item_data rest j (data t)))
      | None => Raise IndexError
      end
  end.

(** [t.to(dt)]: the tensor itself when it already has dtype [dt], else a
    converted copy. *)
Definition to (dt : dtype) (t : Tensor) : Tensor :=
  if decide (dtype_of t = dt) then t
  else mk_Tensor dt (shape t) (convert dt <$> data t).

(** [torch.tensor(i)] for a Python integer: a zero-dimensional int64
    tensor; an integer that does not fit int64 overflows. *)
Definition tensor (i : Z) : result Tensor :=
  if (int64_min <=? i) && (i <=? int64_max)
  then Ok (mk_Tensor int64 [] [SInt i])
  else Raise RuntimeError.

(** [torch.from_numpy(a)]: rejects NumPy scalars. *)
Definition from_numpy (a : ndarray) : result Tensor :=
  match np_shape a with
  | [] => Raise TypeError
  | _ :: _ => Ok (mk_Tensor (np_dtype a) (np_shape a) (np_data a))
  end.

(** [torch.tensor(a, dtype=dt)] for a NumPy value: a converted copy. *)
Definition tensor_of_numpy (a : ndarray) (dt : dtype) : Tensor :=
  mk_Tensor dt (np_shape a) (convert dt <$> np_data a).

(** What the buffer of [t] holds once the view [t[idx]] has been
    overwritten with the elements [d]. *)
Definition view_write (t : Tensor) (i : Z) (d : list scalar) : Tensor :=
  match shape t with
  | [] => t
  | n :: rest =>
      match normalize_index i n with
      | Some j =>
          mk_Tensor (dtype_of t) (shape t)
            (take (j * numel rest) (data t) ++ take (numel rest) d
               ++ drop (j * numel rest + numel rest) (data t))
      | None => t
      end
  end.

End torch.

Abbreviation Tensor := torch.Tensor.

(** The four tensors [mcar] returns, in its order:
    [(X_intact, X, missing_mask, indicating_mask)]. *)
Abbreviation mcar_result := (Tensor * Tensor * Tensor * Tensor)%type.

(** ** The dataset object *)

(** The [data] argument: a dict of arrays, or the path of an h5 file. *)
Inductive data_arg :=
| DataDict (d : gmap string ndarray)
| DataPath (path : string).

(** Attributes set by the base class.  [X] is [None] while the series are
    not loaded in memory (the attribute is then absent); [y] and
    [file_handle] are [None] when the Python attribute is [None]. *)
Record BaseDataset := mk_BaseDataset {
  data : data_arg;
  return_labels : bool;
  file_type : string;
  X : option Tensor;
  y : option Tensor;
  file_handle : option h5py_File
}.

Record DatasetForSAITS := mk_DatasetForSAITS {
  super : BaseDataset;
  rate : spec_float
}.

Definition set_X (t : Tensor) (self : DatasetForSAITS) : DatasetForSAITS :=
  let b := super self in
  mk_DatasetForSAITS
    (mk_BaseDataset (data b) (return_labels b) (file_type b) (Some t) (y b) (file_handle b))
    (rate self).

Definition set_file_handle (h : h5py_File) (self : DatasetForSAITS) : DatasetForSAITS :=
  let b := super self in
  mk_DatasetForSAITS
    (mk_BaseDataset (data b) (return_labels b) (file_type b) (X b) (y b) (Some h))
    (rate self).

(** Modelled from the spec: the constructor of the base dataset class
    (pypots/data/base.py, not part of the sources at hand).  A mapping
    must hold the series under ["X"] and may hold labels under ["y"]; both
    are loaded as tensors once, at construction.  A path is only recorded:
    the file is opened lazily, on the first access. *)
Definition BaseDataset__init__ (data : data_arg) (return_labels : bool)
    (file_type : string) : result BaseDataset :=
  match data with
  | DataDict d =>
      match d !! "X"%string with
      | None => Raise KeyError
      | Some a =>
          match torch.from_numpy a with
          | Raise e => Raise e
          | Ok Xt =>
              match d !! "y"%string with
              | None =>
                  Ok (mk_BaseDataset data return_labels file_type (Some Xt) None None)
              | Some b =>
                  match torch.from_numpy b with
                  | Raise e => Raise e
                  | Ok yt =>
                      Ok (mk_BaseDataset data return_labels file_type (Some Xt) (Some yt) None)
                  end
              end
          end
      end
  | DataPath _ => Ok (mk_BaseDataset data return_labels file_type None None None)
  end.

(** [DatasetForSAITS.__init__]. *)
Definition __init__ (data : data_arg) (return_labels : bool) (file_type : string)
    (rate : spec_float) : result DatasetForSAITS :=
  match BaseDataset__init__ data return_labels file_type with
  | Raise e => Raise e
  | Ok b => Ok (mk_DatasetForSAITS b rate)
  end.

(** ** The storage behind a dataset

    The two retrieval variants seen as one storage source: series held in
    memory, with or without labels, or an open file. *)

Inductive storage :=
| InMemory (Xs : Tensor) (ys : option Tensor)
| OnFile (f : h5py_File).

(** The series stored under index [idx], as a tensor. *)
Definition read_series (st : storage) (idx : Z) : result Tensor :=
  match st with
  | InMemory Xs _ => torch.getitem Xs idx
  | OnFile f =>
      match f !! "X"%string with
      | None => Raise KeyError
      | Some a =>
          match np_getitem a idx with
          | Raise e => Raise e
          | Ok a' => torch.from_numpy a'
          end
      end
  end.

(** The label stored under index [idx], as an integer tensor; [None] when
    the storage has no label source. *)
Definition read_label (st : storage) (idx : Z) : option (result Tensor) :=
  match st with
  | InMemory _ ys =>
      (fun yt =>
         match torch.getitem yt idx with
         | Ok l => Ok (torch.to torch.long l)
         | Raise e => Raise e
         end) <$> ys
  | OnFile f =>
      (fun a =>
         match np_getitem a idx with
         | Ok b => Ok (torch.tensor_of_numpy b torch.long)
         | Raise e => Raise e
         end) <$> f !! "y"%string
  end.

Definition has_labels (st : storage) : bool :=
  match st with
  | InMemory _ ys => bool_decide (is_Some ys)
  | OnFile f => bool_decide (is_Some (f !! "y"%string))
  end.

(** The label to append, if any: none when labels are disabled or there
    is no label source. *)
Definition label_part (st : storage) (enabled : bool) (idx : Z)
    : result (option Tensor) :=
  if enabled then
    match read_label st idx with
    | None => Ok None
    | Some (Ok l) => Ok (Some l)
    | Some (Raise e) => Raise e
    end
  else Ok None.

(** A sample in its field order: index, original series, corrupted
    series, observed-value mask, artificial mask, then the label if any. *)
Definition assemble (i : Tensor) (q : mcar_result) (label : option Tensor)
    : list Tensor :=
  let '(X_intact, Xc, missing_mask, indicating_mask) := q in
  [ i;
    torch.to float32 X_intact;
    torch.to float32 Xc;
    torch.to float32 missing_mask;
    torch.to float32 indicating_mask ] ++ option_list label.

(** Shape of the stored series, all samples together, and of the stored
    labels; [None] when the storage has no such entry. *)
Definition stored_shape (st : storage) : option (list nat) :=
  match st with
  | InMemory Xs _ => Some (torch.shape Xs)
  | OnFile f => np_shape <$> f !! "X"%string
  end.

Definition stored_label_shape (st : storage) : option (list nat) :=
  match st with
  | InMemory _ ys => torch.shape <$> ys
  | OnFile f => np_shape <$> f !! "y"%string
  end.


(** ** Masks

    Positions are those of the row-major element list. *)




(** ** A reference corruptor

    A stand-in for pycorruptor's routine on floating-point series,
    following its steps: the observed positions are collected,
    [int(len * rate)] of them are drawn without replacement, the drawn
    values are hidden, the two masks are computed from the NaN patterns,
    and NaN is replaced by 0.  The draw is a parameter. *)

Fixpoint observed_from (p : nat) (d : list scalar) : list nat :=
  match d with
  | [] => []
  | v :: d' =>
      if scalar_is_nan v then observed_from (S p) d'
      else p :: observed_from (S p) d'
  end.

(** [int(n * rate)], as the size of a draw without replacement among [n]. *)
Definition sample_count (n : nat) (rate : spec_float) : result nat :=
  match float_trunc (SFmul prec64 emax64 (float_of_Z prec64 emax64 (Z.of_nat n)) rate) with
  | Some k =>
      if (0 <=? k) && (k <=? Z.of_nat n) then Ok (Z.to_nat k) else Raise ValueError
  | None => Raise ValueError
  end.

Definition hide (chosen : list nat) (d : list scalar) : list scalar :=
  imap (fun p v => if bool_decide (p ∈ chosen) then SFloat S754_nan else v) d.

Definition max_float_of (dt : dtype) : spec_float :=
  match dt with
  | float32 => SFmax_float prec32 emax32
  | _ => SFmax_float prec64 emax64
  end.

Definition nan_to_num (dt : dtype) (v : scalar) : scalar :=
  match v with
  | SFloat S754_nan => SFloat (S754_zero false)
  | SFloat (S754_infinity s) =>
      SFloat (if s then SFopp (max_float_of dt) else max_float_of dt)
  | _ => v
  end.

Definition mask_value (b : bool) : scalar :=
  if b then one_of float32 else zero_of float32.

Definition is_float (dt : dtype) : bool :=
  match dt with
  | float32 | float64 => true
  | _ => false
  end.

Definition mcar_drawing {G : Type} (draw : list nat -> nat -> G -> list nat * G)
    (Xt : Tensor) (rate : spec_float) (g : G)
    : result mcar_result * list scalar * G :=
  let flat := torch.data Xt in
  let dt := torch.dtype_of Xt in
  let sh := torch.shape Xt in
  if is_float dt then
    let indices := observed_from 0 flat in
    match sample_count (length indices) rate with
    | Raise e => (Raise e, flat, g)
    | Ok k =>
        let '(chosen, g') := draw indices k g in
        let hidden := hide chosen flat in
        let indicating :=
          zip_with (fun a b => xorb (negb (scalar_is_nan a)) (negb (scalar_is_nan b)))
            flat hidden in
        let missing := (fun b => negb (scalar_is_nan b)) <$> hidden in
        (Ok (torch.mk_Tensor dt sh (nan_to_num dt <$> flat),
             torch.mk_Tensor dt sh (nan_to_num dt <$> hidden),
             torch.mk_Tensor float32 sh (mask_value <$> missing),
             torch.mk_Tensor float32 sh (mask_value <$> indicating)),
         flat, g')
    end
  else (Raise TypeError, flat, g).

(** A deterministic draw: the first [k] positions of the list rotated by
    the generator state, which then advances. *)
Definition rotate_draw (indices : list nat) (k : nat) (g : nat) : list nat * nat :=
  (take k (rotate g indices), S g).

Definition mcar_ref : Tensor -> spec_float -> nat -> result mcar_result * list scalar * nat :=
  mcar_drawing rotate_draw.

(** ** The world and method bodies *)

(** What lies outside the object: the state [G] of the random number
    generator, the h5 files on disk by path, and the log of the files
    opened so far, latest first. *)
Record world (G : Type) := mk_world {
  rng : G;
  disk : gmap string h5py_File;
  opened : list string
}.
Arguments mk_world {G} _ _ _.
Arguments rng {G} _.
Arguments disk {G} _.
Arguments opened {G} _.

(** A method body: runs on the object and the world, may change both, and
    returns or raises. *)
Definition py (G A : Type) : Type :=
  DatasetForSAITS -> world G -> result A * DatasetForSAITS * world G.

Definition py_ret {G A} (a : A) : py G A := fun self w => (Ok a, self, w).

Definition py_bind {G A B} (c : py G A) (k : A -> py G B) : py G B :=
  fun self w =>
    match c self w with
    | (Ok a, self', w') => k a self' w'
    | (Raise e, self', w') => (Raise e, self', w')
    end.

#[global] Instance py_mret {G} : MRet (py G) := @py_ret G.
#[global] Instance py_mbind {G} : MBind (py G) := fun A B k c => py_bind c k.

Section Adapter.

Context {G : Type}.

(** The corruption routine of pycorruptor, [mcar(X, rate)].  Besides its
    result it yields the elements its argument holds after the call (the
    argument may be a view of stored data) and the advanced generator. *)
Variable mcar : Tensor -> spec_float -> G -> result mcar_result * list scalar * G.

(** A call that touches neither the object nor the world. *)
Definition call {A} (r : result A) : py G A := fun self w => (r, self, w).

(** Reading an attribute of [self]. *)
Definition getattr {A} (f : BaseDataset -> A) : py G A :=
  fun self w => (Ok (f (super self)), self, w).

Definition getattr_rate : py G spec_float := fun self w => (Ok (rate self), self, w).

(** [self.X]: fails when the attribute is absent. *)
Definition getattr_X : py G Tensor :=
  fun self w =>
    match X (super self) with
    | Some t => (Ok t, self, w)
    | None => (Raise AttributeError, self, w)
    end.

(** [mcar(X, rate=r)] where [X] is the view [self.X[idx]]: what the
    routine leaves in its argument is left in the stored tensor. *)
Definition mcar_on_view (idx : Z) (Xv : Tensor) (r : spec_float) : py G mcar_result :=
  fun self w =>
    let '(res, after, g) := mcar Xv r (rng w) in
    let self' :=
      match X (super self) with
      | Some t => set_X (torch.view_write t idx after) self
      | None => self
      end in
    (res, self', mk_world g (disk w) (opened w)).

(** [mcar(X, rate=r)] where [X] is a fresh tensor. *)
Definition mcar_on_fresh (Xf : Tensor) (r : spec_float) : py G mcar_result :=
  fun self w =>
    let '(res, _, g) := mcar Xf r (rng w) in
    (res, self, mk_world g (disk w) (opened w)).

(** Modelled from the spec: [_open_file_handle] of the base class (not
    part of the sources at hand) opens the file the dataset was given a
    path to, through the external file-loading collaborator, whose error
    surfaces when there is no readable file. *)
Definition _open_file_handle : py G h5py_File :=
  fun self w =>
    match data (super self) with
    | DataPath p =>
        match disk w !! p with
        | Some f => (Ok f, self, mk_world (rng w) (disk w) (p :: opened w))
        | None => (Raise OSError, self, w)
        end
    | DataDict _ => (Raise TypeError, self, w)
    end.

(** [self.file_handle[key]]. *)
Definition file_getitem (key : string) : py G ndarray :=
  fun self w =>
    match file_handle (super self) with
    | Some f =>
        match f !! key with
        | Some a => (Ok a, self, w)
        | None => (Raise KeyError, self, w)
        end
    | None => (Raise TypeError, self, w)
    end.

(** [key in self.file_handle.keys()]. *)
Definition file_has_key (key : string) : py G bool :=
  fun self w =>
    match file_handle (super self) with
    | Some f => (Ok (bool_decide (is_Some (f !! key))), self, w)
    | None => (Raise AttributeError, self, w)
    end.

(** [self.file_handle = h]. *)
Definition setattr_file_handle (h : h5py_File) : py G unit :=
  fun self w => (Ok tt, set_file_handle h self, w).

Definition _fetch_data_from_array (idx : Z) : py G (list Tensor) :=
  self_X ← getattr_X;
  X ← call (torch.getitem self_X idx);
  rate ← getattr_rate;
  '(X_intact, X, missing_mask, indicating_mask) ← mcar_on_view idx X rate;
  i ← call (torch.tensor idx);
  let sample :=
    [ i;
      torch.to float32 X_intact;
      torch.to float32 X;
      torch.to float32 missing_mask;
      torch.to float32 indicating_mask ] in
  labels ← getattr y;
  enabled ← getattr return_labels;
  match (labels : option Tensor) with
  | Some yt =>
      if (enabled : bool) then
        l ← call (torch.getitem yt idx);
        py_ret (sample ++ [torch.to torch.long l])
      else py_ret sample
  | None => py_ret sample
  end.

Definition _fetch_data_from_file (idx : Z) : py G (list Tensor) :=
  fh ← getattr file_handle;
  _ ← match (fh : option h5py_File) with
      | None => h ← _open_file_handle; setattr_file_handle h
      | Some _ => py_ret tt
      end;
  dX ← file_getitem "X";
  a ← call (np_getitem dX idx);
  X ← call (torch.from_numpy a);
  rate ← getattr_rate;
  '(X_intact, X, missing_mask, indicating_mask) ← mcar_on_fresh X rate;
  i ← call (torch.tensor idx);
  let sample :=
    [ i;
      torch.to float32 X_intact;
      torch.to float32 X;
      torch.to float32 missing_mask;
      torch.to float32 indicating_mask ] in
  has_y ← file_has_key "y";
  enabled ← getattr return_labels;
  if (has_y : bool) && (enabled : bool) then
    dy ← file_getitem "y";
    b ← call (np_getitem dy idx);
    py_ret (sample ++ [torch.tensor_of_numpy b torch.long])
  else py_ret sample.

(** Modelled from the spec: the base class selects the retrieval variant
    at construction, by the kind of [data] it was given, and [__getitem__]
    runs it. *)
Definition fetch_data (idx : Z) : py G (list Tensor) :=
  fun self w =>
    match data (super self) with
    | DataDict _ => _fetch_data_from_array idx self w
    | DataPath _ => _fetch_data_from_file idx self w
    end.

(** Running fetches one after the other, keeping the samples. *)
Fixpoint fetch_all (idxs : list Z) : py G (list (list Tensor)) :=
  match idxs with
  | [] => py_ret []
  | idx :: rest =>
      s ← fetch_data idx;
      ss ← fetch_all rest;
      py_ret (s :: ss)
  end.

(** ** The fetch, read off the storage source *)

(** The file a file-backed dataset reads: the memoized handle, or the
    file a first access opens. *)
Definition current_file (self : DatasetForSAITS) (w : world G) : result h5py_File :=
  match file_handle (super self) with
  | Some f => Ok f
  | None => (_open_file_handle self w).1.1
  end.

(** The storage source a fetch reads from. *)
Definition storage_of (self : DatasetForSAITS) (w : world G) : result storage :=
  match data (super self) with
  | DataDict _ =>
      match X (super self) with
      | Some Xs => Ok (InMemory Xs (y (super self)))
      | None => Raise AttributeError
      end
  | DataPath _ =>
      match current_file self w with
      | Ok f => Ok (OnFile f)
      | Raise e => Raise e
      end
  end.

(** What a fetch returns or raises, as a function of the storage source:
    read the series, corrupt it, wrap the index, read the label. *)
Definition fetch_spec (idx : Z) (self : DatasetForSAITS) (w : world G)
    : result (list Tensor) :=
  st ← storage_of self w;
  Xv ← read_series st idx;
  q ← (mcar Xv (rate self) (rng w)).1.1;
  i ← torch.tensor idx;
  lbl ← label_part st (return_labels (super self)) idx;
  Ok (assemble i q lbl).

(** What the constructor establishes for an in-memory dataset: the series
    are loaded, and labels are loaded exactly when the dict has them. *)
Definition loaded (self : DatasetForSAITS) : Prop :=
  match data (super self) with
  | DataDict d =>
      is_Some (X (super self))
      ∧ (is_Some (y (super self)) ↔ is_Some (d !! "y"%string))
  | DataPath _ => True
  end.

(** The datasets a fetch leaves as they are: those held in memory, and
    those on file whose handle is set. *)
Definition settled (self : DatasetForSAITS) : Prop :=
  match data (super self) with
  | DataDict _ => True
  | DataPath _ => is_Some (file_handle (super self))
  end.

(** Whether a label source exists: a ["y"] entry in the data dict, or a
    ["y"] key in the file. *)
Definition label_source_exists (self : DatasetForSAITS) (w : world G) : bool :=
  match data (super self) with
  | DataDict d => bool_decide (is_Some (d !! "y"%string))
  | DataPath _ =>
      match current_file self w with
      | Ok f => bool_decide (is_Some (f !! "y"%string))
      | Raise _ => false
      end
  end.


(** ** What the adapter expects of the corruption routine

    The routine is external; these are the properties the data model of
    the spec ascribes to its results, each stated on its own so that a
    theorem names the ones it rests on. *)

(** The routine leaves its argument as it found it. *)
Definition mcar_pure : Prop :=
  ∀ Xv r g res after g',
    mcar Xv r g = (res, after, g') → after = torch.data Xv.

(** The original series it returns is determined by its argument alone,
    whatever the rate and the generator state. *)
Definition mcar_intact_of_input : Prop :=
  ∀ Xv r1 r2 g1 g2 q1 q2 after1 after2 g1' g2',
    mcar Xv r1 g1 = (Ok q1, after1, g1') →
    mcar Xv r2 g2 = (Ok q2, after2, g2') →
    q1.1.1.1 = q2.1.1.1.

(** Its four results have the shape of its argument. *)
Definition mcar_keeps_shape : Prop :=
  ∀ Xv r g X_intact Xc missing_mask indicating_mask after g',
    mcar Xv r g = (Ok (X_intact, Xc, missing_mask, indicating_mask), after, g') →
    torch.shape X_intact = torch.shape Xv
    ∧ torch.shape Xc = torch.shape Xv
    ∧ torch.shape missing_mask = torch.shape Xv
    ∧ torch.shape indicating_mask = torch.shape Xv.


End Adapter.

(** ** A small dataset, in memory and on file *)

Definition f64 (z : Z) : scalar := SFloat (float_of_Z prec64 emax64 z).
Definition nan : scalar := SFloat S754_nan.

(** Two series of two time steps and three features, with missing values. *)
Definition demo_X : ndarray :=
  mk_ndarray float64 [2; 2; 3]%nat
    [ f64 1; nan; f64 3; f64 4; f64 5; f64 6;
      f64 7; f64 8; nan; f64 10; f64 11; f64 12 ].

Definition demo_y : ndarray := mk_ndarray int64 [2]%nat [SInt 0; SInt 1].

Definition demo_dict : gmap string ndarray :=
  {[ "X"%string := demo_X; "y"%string := demo_y ]}.

Definition demo_path : string := "train.h5".

(** The default rate 0.2, as a binary64 number. *)
Definition demo_rate : spec_float := S754_finite false 3602879701896397 (-54).

Definition demo_world : world nat :=
  mk_world 0%nat {[ demo_path := demo_dict ]} [].

Definition demo_X_tensor : Tensor :=
  torch.mk_Tensor float64 [2; 2; 3]%nat (np_data demo_X).

Definition demo_y_tensor : Tensor :=
  torch.mk_Tensor int64 [2]%nat (np_data demo_y).

Definition demo_in_memory : DatasetForSAITS :=
  mk_DatasetForSAITS
    (mk_BaseDataset (DataDict demo_dict) true "h5py"
       (Some demo_X_tensor) (Some demo_y_tensor) None)
    demo_rate.

Definition demo_on_file : DatasetForSAITS :=
  mk_DatasetForSAITS
    (mk_BaseDataset (DataPath demo_path) true "h5py" None None None)
    demo_rate.

Definition f32 (z : Z) : scalar := SFloat (float_of_Z prec32 emax32 z).

(** The sample expected for series 0 when the generator state is 0: of
    the five observed values one is hidden, the first. *)
Definition demo_sample_0 : list Tensor :=
  [ torch.mk_Tensor int64 [] [SInt 0];
    torch.mk_Tensor float32 [2; 3]%nat [f32 1; f32 0; f32 3; f32 4; f32 5; f32 6];
    torch.mk_Tensor float32 [2; 3]%nat [f32 0; f32 0; f32 3; f32 4; f32 5; f32 6];
    torch.mk_Tensor float32 [2; 3]%nat [f32 0; f32 0; f32 1; f32 1; f32 1; f32 1];
    torch.mk_Tensor float32 [2; 3]%nat [f32 1; f32 0; f32 0; f32 0; f32 0; f32 0];
    torch.mk_Tensor int64 [] [SInt 0] ].

(** The same series with labels switched off; in memory the labels are
    one short of the series. *)
Definition demo_quiet_in_memory : DatasetForSAITS :=
  mk_DatasetForSAITS
    (mk_BaseDataset (DataDict demo_dict) false "h5py"
       (Some demo_X_tensor) (Some (torch.mk_Tensor int64 [1]%nat [SInt 0])) None)
    demo_rate.

Definition demo_quiet_on_file : DatasetForSAITS :=
  mk_DatasetForSAITS
    (mk_BaseDataset (DataPath demo_path) false "h5py" None None None)
    demo_rate.

(** The dataset on file, once its handle is set. *)
Definition demo_opened : DatasetForSAITS := set_file_handle demo_dict demo_on_file.

(** A file that holds labels but no series. *)
Definition demo_world_without_series : world nat :=
  mk_world 0%nat {[ demo_path := ({[ "y"%string := demo_y ]} : gmap string ndarray) ]} [].

(** ** Proof tools for method bodies *)

Ltac py_unfold_in H :=
  unfold fetch_data, _fetch_data_from_array, _fetch_data_from_file,
    mbind, py_mbind, py_bind, py_ret, call, getattr, getattr_rate, getattr_X,
    mcar_on_view, mcar_on_fresh, _open_file_handle, setattr_file_handle,
    file_getitem, file_has_key in H.

Ltac py_unfold :=
  unfold fetch_data, _fetch_data_from_array, _fetch_data_from_file,
    mbind, py_mbind, py_bind, py_ret, call, getattr, getattr_rate, getattr_X,
    mcar_on_view, mcar_on_fresh, _open_file_handle, setattr_file_handle,
    file_getitem, file_has_key.

(** Case analysis along the run recorded in [H], one call at a time,
    innermost call first. *)
Ltac py_inv H :=
  py_unfold_in H; cbv beta in H;
  repeat (match type of H with
          | context [match ?x with _ => _ end] =>
              lazymatch x with
              | context [match _ with _ => _ end] => fail
              | _ => destruct x eqn:?
              end
          end; simpl in H; try discriminate H);
  simplify_eq/=.

(** The same on the goal. *)
Ltac py_cases :=
  repeat (match goal with
          | |- context [match ?x with _ => _ end] =>
              lazymatch x with
              | context [match _ with _ => _ end] => fail
              | _ => destruct x eqn:?
              end
          end; simpl; simplify_eq/=; try done).

(** Rewrite with the equations the case analysis recorded. *)
Ltac use_eqs :=
  repeat match goal with
         | Heq : ?x = _ |- context [?x] => rewrite Heq; simpl
         end.

(** What the label test of the file variant decided. *)
Ltac label_test :=
  repeat match goal with
         | H : _ && true = _ |- _ => rewrite andb_true_r in H
         | H : _ && false = true |- _ => by rewrite andb_false_r in H
         | H : _ && false = false |- _ => clear H
         | H : bool_decide _ = true |- _ => apply bool_decide_eq_true in H
         | H : bool_decide _ = false |- _ => apply bool_decide_eq_false in H
         | H : is_Some (_ !! _) |- _ => destruct H as [? H]
         | H : ¬ is_Some (_ !! _) |- _ => apply eq_None_not_Some in H
         end.

(** ** The collaborators on small inputs *)

(** 0.2 as a binary64 number rounds to the nearest binary32 number. *)
Example rate_to_float32 :
  convert float32 (SFloat demo_rate) = SFloat (S754_finite false 13421773 (-26)).
Proof. reflexivity. Qed.

Example float_to_long_truncates :
  convert torch.long (SFloat (S754_finite true 7 (-1))) = SInt (-3).
Proof. reflexivity. Qed.

(** A negative index counts from the end; one past either end raises. *)
Example getitem_negative :
  torch.getitem demo_y_tensor (-2) = Ok (torch.mk_Tensor int64 [] [SInt 0]).
Proof. reflexivity. Qed.

Example getitem_out_of_range : torch.getitem demo_y_tensor (-3) = Raise IndexError.
Proof. reflexivity. Qed.

(** Reading one label from file gives a NumPy scalar, which
    [torch.from_numpy] rejects and [torch.tensor] accepts. *)
Example label_from_file :
  np_getitem demo_y 1 = Ok (mk_ndarray int64 [] [SInt 1])
  ∧ torch.from_numpy (mk_ndarray int64 [] [SInt 1]) = Raise TypeError
  ∧ torch.tensor_of_numpy (mk_ndarray int64 [] [SInt 1]) torch.long
    = torch.mk_Tensor int64 [] [SInt 1].
Proof. by split_and!. Qed.

Example tensor_overflow : torch.tensor (2 ^ 63) = Raise RuntimeError.
Proof. reflexivity. Qed.

(** Of five observed values, a rate of 0.2 hides one; a rate of 1.5 asks
    for more values than there are, which the draw refuses. *)
Example sample_count_default : sample_count 5 demo_rate = Ok 1%nat.
Proof. reflexivity. Qed.

Example sample_count_too_many :
  sample_count 5 (S754_finite false 3 (-1)) = Raise ValueError.
Proof. reflexivity. Qed.

(** ** Tensors: casts and views *)

Lemma to_dtype dt t : torch.dtype_of (torch.to dt t) = dt.
Proof. unfold torch.to. by case_decide. Qed.

Lemma to_shape dt t : torch.shape (torch.to dt t) = torch.shape t.
Proof. unfold torch.to. by case_decide. Qed.





Lemma item_data_restore rest j d :
  take (j * numel rest) d ++ take (numel rest) (item_data rest j d)
    ++ drop (j * numel rest + numel rest) d = d.
Proof.
  unfold item_data. rewrite take_take, Nat.min_id.
  rewrite <- drop_drop, take_drop. apply take_drop.
Qed.

(** Writing back what a view holds changes nothing. *)
Lemma view_write_getitem t i v :
  torch.getitem t i = Ok v → torch.view_write t i (torch.data v) = t.
Proof.
  unfold torch.getitem, torch.view_write.
  destruct (torch.shape t) as [|n rest] eqn:Hs; [done|].
  destruct (normalize_index i n) as [j|]; [|done].
  intros [= <-]. simpl. rewrite item_data_restore, <- Hs. by destruct t.
Qed.

(** Selecting an item of an array read from file and wrapping it gives
    the item of the wrapped array. *)
Lemma from_numpy_getitem a i a' t Xv :
  np_getitem a i = Ok a' → torch.from_numpy a' = Ok Xv →
  torch.from_numpy a = Ok t → torch.getitem t i = Ok Xv.
Proof.
  unfold np_getitem, torch.from_numpy, torch.getitem.
  destruct (np_shape a) as [|n rest] eqn:Hs; [done|].
  destruct (normalize_index i n) as [j|] eqn:Hj; [|done].
  intros [= <-]. simpl. destruct rest as [|m rest]; [done|].
  intros [= <-] [= <-]. simpl. by rewrite Hj.
Qed.

(** For series of two or more dimensions, the file and the tensor loaded
    from the same array answer every index alike, errors included. *)
Lemma read_series_modes_agree (D : gmap string ndarray) a Xt ys idx :
  D !! "X"%string = Some a → torch.from_numpy a = Ok Xt →
  (2 ≤ length (np_shape a))%nat →
  read_series (OnFile D) idx = read_series (InMemory Xt ys) idx.
Proof.
  intros HD HX Hrank. simpl. rewrite HD.
  unfold np_getitem, torch.getitem, torch.from_numpy in *.
  destruct (np_shape a) as [|n [|m rest]] eqn:Hs; simpl in Hrank; try lia.
  injection HX as <-. simpl.
  by destruct (normalize_index idx n).
Qed.

(** ** The label part of a sample *)

Lemma has_labels_read_label st idx :
  has_labels st = bool_decide (is_Some (read_label st idx)).
Proof.
  destruct st as [Xs ys|f]; simpl; apply bool_decide_ext;
    by rewrite fmap_is_Some.
Qed.

(** The label is there exactly when a label source exists and labels are
    enabled, and then it is the stored label. *)
Lemma label_part_Ok st enabled idx lbl :
  label_part st enabled idx = Ok lbl ↔
  if has_labels st && enabled
  then ∃ l, read_label st idx = Some (Ok l) ∧ lbl = Some l
  else lbl = None.
Proof.
  rewrite (has_labels_read_label st idx). unfold label_part.
  destruct enabled; rewrite ?andb_true_r, ?andb_false_r.
  - destruct (read_label st idx) as [[l|e]|] eqn:Hl.
    + rewrite bool_decide_eq_true_2 by eauto. split.
      * intros [= <-]. eauto.
      * by intros (l' & [= <-] & ->).
    + rewrite bool_decide_eq_true_2 by eauto. split; [done|].
      by intros (l' & [=] & _).
    + rewrite bool_decide_eq_false_2 by (by intros [? ?]).
      split; [by intros [= <-] | by intros ->].
  - split; [by intros [= <-] | by intros ->].
Qed.

Lemma read_label_dtype st idx l :
  read_label st idx = Some (Ok l) → torch.dtype_of l = torch.long.
Proof.
  destruct st as [Xs [yt|]|f]; simpl; try done.
  - destruct (torch.getitem yt idx); intros [= <-]. apply to_dtype.
  - destruct (f !! "y"%string) as [a|]; [simpl|done].
    by destruct (np_getitem a idx); intros [= <-].
Qed.

Lemma tensor_Ok idx i :
  torch.tensor idx = Ok i → i = torch.mk_Tensor int64 [] [SInt idx].
Proof. unfold torch.tensor. case_match; by intros [= <-]. Qed.

Lemma assemble_length i q lbl :
  length (assemble i q lbl) = (5 + length (option_list lbl))%nat.
Proof. by destruct q as [[[? ?] ?] ?]. Qed.

Section AdapterProofs.

Context {G : Type}.
Variable mcar : Tensor -> spec_float -> G -> result mcar_result * list scalar * G.

(** ** The fetch and its storage-level description agree *)

Lemma fetch_data_refines idx self w :
  (fetch_data mcar idx self w).1.1 = fetch_spec mcar idx self w.
Proof.
  unfold fetch_spec, storage_of, current_file, label_part, read_series, read_label.
  unfold mbind, result_bind. py_unfold. cbv beta.
  py_cases.
  all: label_test.
  all: match goal with H : ?m !! _ = None |- _ => by rewrite H end.
Qed.

(** A fetch that returns: every call it made returned, and the sample is
    assembled from their results. *)
Lemma fetch_data_Ok idx self w s self' w' :
  fetch_data mcar idx self w = (Ok s, self', w') →
  ∃ st Xv q after i lbl,
    storage_of self w = Ok st
    ∧ read_series st idx = Ok Xv
    ∧ mcar Xv (rate self) (rng w) = (Ok q, after, rng w')
    ∧ torch.tensor idx = Ok i
    ∧ label_part st (return_labels (super self)) idx = Ok lbl
    ∧ s = assemble i q lbl.
Proof.
  intros H. py_inv H.
  all: unfold storage_of, current_file, label_part, _open_file_handle.
  all: label_test; use_eqs.
  all: repeat match goal with
         | |- context [return_labels ?b] => destruct (return_labels b) eqn:?
         end.
  all: label_test; use_eqs.
  all: eexists _, _, (_, _, _, _), _, _, _.
  all: split_and!; try reflexivity; simpl; use_eqs; try done.
  Unshelve. all: exact None.
Qed.

(** ** What a fetch changes *)

(** Whatever the outcome, every attribute other than [X] and
    [file_handle] keeps its value, and so does the disk. *)
Lemma fetch_data_frame idx self w r self' w' :
  fetch_data mcar idx self w = (r, self', w') →
  rate self' = rate self
  ∧ data (super self') = data (super self)
  ∧ return_labels (super self') = return_labels (super self)
  ∧ file_type (super self') = file_type (super self)
  ∧ y (super self') = y (super self)
  ∧ disk w' = disk w.
Proof. intros H. py_inv H; done. Qed.

(** In memory, with a routine that leaves its argument alone, the object
    is as before, and no file is opened. *)
Lemma fetch_array_self idx self w r self' w' d :
  mcar_pure mcar →
  data (super self) = DataDict d →
  fetch_data mcar idx self w = (r, self', w') →
  self' = self ∧ opened w' = opened w.
Proof.
  intros Hpure Hd H. unfold fetch_data in H. rewrite Hd in H.
  py_inv H; try done.
  all: match goal with
       | Hm : mcar _ _ _ = _, Hg : torch.getitem _ _ = Ok _ |- _ =>
           apply Hpure in Hm; subst; rewrite (view_write_getitem _ _ _ Hg)
       end.
  all: split; [|done]; destruct self as [[] ?]; simpl in *; by subst.
Qed.

(** On file: the handle is the only attribute touched; a handle that is
    set is kept and nothing is opened; an unset one is assigned the file
    just opened, if opening succeeds. *)
Lemma fetch_file_self idx self w r self' w' p :
  data (super self) = DataPath p →
  fetch_data mcar idx self w = (r, self', w') →
  X (super self') = X (super self)
  ∧ match file_handle (super self) with
    | Some h => self' = self ∧ opened w' = opened w
    | None =>
        match disk w !! p with
        | Some f => self' = set_file_handle f self ∧ opened w' = p :: opened w
        | None => self' = self ∧ w' = w ∧ r = Raise OSError
        end
    end.
Proof.
  intros Hd H. unfold fetch_data in H. rewrite Hd in H.
  py_inv H; use_eqs; done.
Qed.

(** ** The sample *)

(** C1. For every index the storage holds, in memory or on file, a fetch
    returns a sample exactly when its collaborators return, and the sample
    then lists, in this order, the index, the original series, the
    corrupted series, the observed-value mask and the artificial mask,
    followed by the label as sixth field exactly when a label source
    exists and labels are enabled. *)
Theorem fetch_fields_in_order idx self w s :
  (∃ self' w', fetch_data mcar idx self w = (Ok s, self', w')) ↔
  ∃ st Xv X_intact Xc missing_mask indicating_mask i,
    storage_of self w = Ok st
    ∧ read_series st idx = Ok Xv
    ∧ (mcar Xv (rate self) (rng w)).1.1
      = Ok (X_intact, Xc, missing_mask, indicating_mask)
    ∧ torch.tensor idx = Ok i
    ∧ if has_labels st && return_labels (super self)
      then ∃ l, read_label st idx = Some (Ok l)
                ∧ s = [ i;
                        torch.to float32 X_intact;
                        torch.to float32 Xc;
                        torch.to float32 missing_mask;
                        torch.to float32 indicating_mask;
                        l ]
      else s = [ i;
                 torch.to float32 X_intact;
                 torch.to float32 Xc;
                 torch.to float32 missing_mask;
                 torch.to float32 indicating_mask ].
Proof.
  pose proof (fetch_data_refines idx self w) as R.
  unfold fetch_spec, mbind, result_bind in R. split.
  - intros (self' & w' & H). rewrite H in R. simpl in R.
    destruct (storage_of self w) as [st|]; [|discriminate R].
    destruct (read_series st idx) as [Xv|] eqn:HX; [|discriminate R].
    destruct (mcar Xv (rate self) (rng w)).1.1 as [[[[xi xc] mm] im]|] eqn:Hm;
      [|discriminate R].
    destruct (torch.tensor idx) as [i|]; [|discriminate R].
    destruct (label_part st (return_labels (super self)) idx) as [lbl|] eqn:Hl;
      [|discriminate R].
    injection R as ->. apply label_part_Ok in Hl.
    exists st, Xv, xi, xc, mm, im, i. do 4 (split; [done|]).
    destruct (has_labels st && return_labels (super self)).
    + destruct Hl as (l & Hl & ->). by exists l.
    + by subst.
  - intros (st & Xv & xi & xc & mm & im & i & Hst & HX & Hm & Hi & Hs).
    rewrite Hst, HX, Hm, Hi in R.
    assert (∃ lbl, label_part st (return_labels (super self)) idx = Ok lbl
                   ∧ s = assemble i (xi, xc, mm, im) lbl) as (lbl & Hl & ->).
    { destruct (has_labels st && return_labels (super self)) eqn:Hb.
      - destruct Hs as (l & Hl & ->). exists (Some l). split; [|done].
        apply label_part_Ok. rewrite Hb. eauto.
      - exists None. split; [|by subst]. apply label_part_Ok. by rewrite Hb. }
    rewrite Hl in R.
    destruct (fetch_data mcar idx self w) as [[r self'] w']. simpl in R.
    subst r. eauto.
Qed.

(** The label source the adapter consults is the one the constructor
    loaded from the data it was given. *)
Lemma loaded_has_labels self (w : world G) st :
  loaded self → storage_of self w = Ok st →
  has_labels st = label_source_exists self w.
Proof.
  unfold loaded, storage_of, label_source_exists.
  destruct (data (super self)) as [d|p].
  - intros [_ Hy]. destruct (X (super self)); intros [= <-]; simpl.
    by apply bool_decide_ext.
  - intros _. by destruct (current_file self w); intros [= <-].
Qed.

(** C2. A returned sample has exactly 6 elements when a label source
    exists (a "y" entry in the data dict, a "y" key in the file) and
    return_labels is true, and exactly 5 otherwise. *)
Theorem sample_length idx self w s self' w' :
  loaded self →
  fetch_data mcar idx self w = (Ok s, self', w') →
  length s =
    if label_source_exists self w && return_labels (super self)
    then 6%nat else 5%nat.
Proof.
  intros Hl H.
  apply fetch_data_Ok in H as (st & Xv & q & after & i & lbl & Hst & _ & _ & _ & Hlbl & ->).
  rewrite assemble_length, <- (loaded_has_labels _ _ _ Hl Hst).
  apply label_part_Ok in Hlbl.
  destruct (has_labels st && return_labels (super self)).
  - by destruct Hlbl as (l & _ & ->).
  - by subst.
Qed.

(** C6. In a returned sample the original series, the corrupted series
    and the two masks are float32 tensors, and the label, when present,
    is an int64 (long) tensor. *)
Theorem sample_dtypes idx self w s self' w' :
  fetch_data mcar idx self w = (Ok s, self', w') →
  (∀ k, (1 ≤ k ≤ 4)%nat →
        ∃ t, s !! k = Some t ∧ torch.dtype_of t = float32)
  ∧ (∀ l, s !! 5%nat = Some l → torch.dtype_of l = torch.long).
Proof.
  intros H.
  apply fetch_data_Ok in H as (st & Xv & q & after & i & lbl & _ & _ & _ & _ & Hlbl & ->).
  destruct q as [[[xi xc] mm] im]. split.
  - intros k Hk.
    destruct k as [|[|[|[|[|k]]]]]; try lia; simpl; eexists; split;
      try reflexivity; apply to_dtype.
  - intros l Hl. simpl in Hl. apply label_part_Ok in Hlbl.
    destruct (has_labels st && return_labels (super self)).
    + destruct Hlbl as (l' & Hr & ->). simpl in Hl. injection Hl as <-.
      by eapply read_label_dtype.
    + by subst.
Qed.


(** C10. The first element of a returned sample is a zero-dimensional
    int64 tensor holding the requested index. *)
Theorem first_field_is_index idx self w s self' w' :
  fetch_data mcar idx self w = (Ok s, self', w') →
  s !! 0%nat = Some (torch.mk_Tensor int64 [] [SInt idx]).
Proof.
  intros H.
  apply fetch_data_Ok in H as (st & Xv & q & after & i & lbl & _ & _ & _ & Hi & _ & ->).
  destruct q as [[[xi xc] mm] im]. simpl. by rewrite (tensor_Ok _ _ Hi).
Qed.


(** ** Construction *)

Lemma init_in_memory D rl ft r ds :
  __init__ (DataDict D) rl ft r = Ok ds →
  ∃ a Xt,
    D !! "X"%string = Some a
    ∧ torch.from_numpy a = Ok Xt
    ∧ X (super ds) = Some Xt
    ∧ data (super ds) = DataDict D
    ∧ rate ds = r.
Proof.
  unfold __init__, BaseDataset__init__.
  destruct (D !! "X"%string) as [a|]; [|done].
  destruct (torch.from_numpy a) as [Xt|] eqn:HX; [|done].
  destruct (D !! "y"%string) as [b|]; [destruct (torch.from_numpy b); [|done]|];
    intros [= <-]; by exists a, Xt.
Qed.

Lemma init_on_file p rl ft r ds :
  __init__ (DataPath p) rl ft r = Ok ds →
  ds = mk_DatasetForSAITS (mk_BaseDataset (DataPath p) rl ft None None None) r.
Proof. by intros [= <-]. Qed.

(** The constructor establishes [loaded]. *)
Lemma init_loaded d rl ft r ds : __init__ d rl ft r = Ok ds → loaded ds.
Proof.
  unfold __init__, BaseDataset__init__, loaded. destruct d as [D|p].
  - destruct (D !! "X"%string) as [a|]; [|done].
    destruct (torch.from_numpy a) as [Xt|]; [|done].
    destruct (D !! "y"%string) as [b|] eqn:Hy;
      [destruct (torch.from_numpy b); [|done]|];
      intros [= <-]; simpl; rewrite Hy; (split; [by eauto|]).
    + split; eauto.
    + split; by intros [? ?].
  - by intros [= <-].
Qed.

(** A fetch preserves it. *)
Lemma fetch_data_loaded idx self w r self' w' :
  loaded self → fetch_data mcar idx self w = (r, self', w') → loaded self'.
Proof.
  intros Hl H. pose proof (fetch_data_frame _ _ _ _ _ _ H) as (_ & Hd & _ & _ & Hy & _).
  unfold loaded in *. rewrite Hd, Hy.
  destruct (data (super self)) as [d|p] eqn:Hdata; [|done].
  destruct Hl as [HX ?]. split; [|done].
  unfold fetch_data in H. rewrite Hdata in H.
  py_inv H; unfold set_X; simpl; use_eqs; eauto.
Qed.

(** ** The stored data across fetches *)

(** After a fetch that returned, the storage source is the one the fetch
    read from. *)
Lemma fetch_data_storage idx self w s self' w' :
  mcar_pure mcar →
  fetch_data mcar idx self w = (Ok s, self', w') →
  storage_of self' w' = storage_of self w ∧ rate self' = rate self.
Proof.
  intros Hpure H.
  destruct (data (super self)) as [d|p] eqn:Hd.
  - destruct (fetch_array_self _ _ _ _ _ _ _ Hpure Hd H) as [-> _].
    unfold storage_of. by rewrite Hd.
  - destruct (fetch_file_self _ _ _ _ _ _ _ Hd H) as [_ Hh].
    unfold storage_of, current_file, _open_file_handle.
    destruct (file_handle (super self)) as [h|] eqn:Hfh.
    + destruct Hh as [-> _]. by rewrite Hd, Hfh.
    + rewrite Hd. destruct (disk w !! p) as [f|].
      * destruct Hh as [-> _]. simpl. by rewrite Hd.
      * by destruct Hh as (_ & _ & [=]).
Qed.

(** C5. Two successive fetches of one index return the same original
    series (second field): each reads the stored series anew, which the
    first fetch left as it was, provided the corruption routine leaves its
    argument alone and derives the original series from it alone. *)
Theorem refetch_same_original idx self w s1 self1 w1 s2 self2 w2 :
  mcar_pure mcar →
  mcar_intact_of_input mcar →
  fetch_data mcar idx self w = (Ok s1, self1, w1) →
  fetch_data mcar idx self1 w1 = (Ok s2, self2, w2) →
  ∃ X_intact, s1 !! 1%nat = Some X_intact ∧ s2 !! 1%nat = Some X_intact.
Proof.
  intros Hpure Hintact H1 H2.
  destruct (fetch_data_storage _ _ _ _ _ _ Hpure H1) as [Hst Hrate].
  apply fetch_data_Ok in H1 as (st & Xv & q1 & a1 & i1 & l1 & Hs1 & HX1 & Hm1 & _ & _ & ->).
  apply fetch_data_Ok in H2 as (st' & Xv' & q2 & a2 & i2 & l2 & Hs2 & HX2 & Hm2 & _ & _ & ->).
  rewrite Hst, Hs1 in Hs2. injection Hs2 as <-.
  rewrite HX1 in HX2. injection HX2 as <-.
  pose proof (Hintact _ _ _ _ _ _ _ _ _ _ _ Hm1 Hm2) as Heq.
  destruct q1 as [[[xi1 xc1] mm1] im1], q2 as [[[xi2 xc2] mm2] im2].
  simpl in Heq. subst xi2. by exists (torch.to float32 xi1).
Qed.

(** C4. A dataset built in memory over the data D and one built over the
    path of a file that contains the same data D return the same original
    series (second field) for one index, provided the corruption routine
    derives the original series from its argument alone. *)
Theorem same_original_in_both_modes D path rlA ftA rA rlF ftF rF dsA dsF
    idx wA wF sA sF dsA' dsF' wA' wF' :
  mcar_intact_of_input mcar →
  __init__ (DataDict D) rlA ftA rA = Ok dsA →
  __init__ (DataPath path) rlF ftF rF = Ok dsF →
  disk wF !! path = Some D →
  fetch_data mcar idx dsA wA = (Ok sA, dsA', wA') →
  fetch_data mcar idx dsF wF = (Ok sF, dsF', wF') →
  ∃ X_intact, sA !! 1%nat = Some X_intact ∧ sF !! 1%nat = Some X_intact.
Proof.
  intros Hintact HA HF Hdisk HfA HfF.
  apply init_in_memory in HA as (a & Xt & HDX & Hnp & HXA & HdA & _).
  apply init_on_file in HF as ->.
  apply fetch_data_Ok in HfA as (stA & XvA & qA & aA & iA & lA & HsA & HXvA & HmA & _ & _ & ->).
  apply fetch_data_Ok in HfF as (stF & XvF & qF & aF & iF & lF & HsF & HXvF & HmF & _ & _ & ->).
  unfold storage_of in HsA, HsF. rewrite HdA, HXA in HsA. injection HsA as <-.
  unfold current_file, _open_file_handle in HsF. simpl in HsF.
  rewrite Hdisk in HsF. simpl in HsF. injection HsF as <-.
  simpl in HXvA, HXvF. rewrite HDX in HXvF.
  destruct (np_getitem a idx) as [a'|] eqn:Ha'; [|done].
  rewrite (from_numpy_getitem _ _ _ _ _ Ha' HXvF Hnp) in HXvA.
  injection HXvA as <-.
  pose proof (Hintact _ _ _ _ _ _ _ _ _ _ _ HmA HmF) as Heq.
  destruct qA as [[[xiA xcA] mmA] imA], qF as [[[xiF xcF] mmF] imF].
  simpl in Heq. subst xiF. by exists (torch.to float32 xiA).
Qed.

(** ** The memoized file handle *)

Lemma fetch_data_settled idx self w r self' w' :
  mcar_pure mcar → settled self →
  fetch_data mcar idx self w = (r, self', w') →
  self' = self ∧ opened w' = opened w.
Proof.
  intros Hpure Hs H. unfold settled in Hs.
  destruct (data (super self)) as [d|p] eqn:Hd.
  - by eapply fetch_array_self.
  - destruct (fetch_file_self _ _ _ _ _ _ _ Hd H) as [_ Hh].
    destruct Hs as [h Hfh]. by rewrite Hfh in Hh.
Qed.

(** Any number of later fetches leaves them as they are, and opens
    nothing. *)
Lemma fetch_all_settled idxs self w rs self' w' :
  mcar_pure mcar → settled self →
  fetch_all mcar idxs self w = (rs, self', w') →
  self' = self ∧ opened w' = opened w.
Proof.
  intros Hpure Hs. revert w rs self' w'.
  induction idxs as [|idx idxs IH]; intros w rs self' w' H; simpl in H.
  - by injection H as <- <- <-.
  - unfold mbind, py_mbind, py_bind in H.
    destruct (fetch_data mcar idx self w) as [[r1 self1] w1] eqn:H1.
    destruct (fetch_data_settled _ _ _ _ _ _ Hpure Hs H1) as [-> Ho1].
    destruct r1 as [s|e].
    + destruct (fetch_all mcar idxs self w1) as [[r2 self2] w2] eqn:H2.
      destruct (IH _ _ _ _ H2) as [-> Ho2].
      destruct r2; injection H as <- <- <-; split; congruence.
    + injection H as <- <- <-. done.
Qed.

(** Over any run of fetches the file is opened at most once, and only
    when the handle was unset. *)
Lemma fetch_all_opens_once idxs self w rs self' w' :
  mcar_pure mcar →
  fetch_all mcar idxs self w = (rs, self', w') →
  opened w' = opened w
  ∨ file_handle (super self) = None ∧ ∃ p, opened w' = p :: opened w.
Proof.
  intros Hpure H.
  destruct idxs as [|idx idxs]; simpl in H; [left; by injection H as <- <- <-|].
  unfold mbind, py_mbind, py_bind in H.
  destruct (fetch_data mcar idx self w) as [[r1 self1] w1] eqn:H1.
  destruct (data (super self)) as [d|p] eqn:Hd.
  - left. eapply (fetch_all_settled (idx :: idxs) self w rs self' w' Hpure).
    + unfold settled. by rewrite Hd.
    + simpl. unfold mbind, py_mbind, py_bind. by rewrite H1.
  - destruct (fetch_file_self _ _ _ _ _ _ _ Hd H1) as [_ Hh].
    destruct (file_handle (super self)) as [h|] eqn:Hfh.
    + left. eapply (fetch_all_settled (idx :: idxs) self w rs self' w' Hpure).
      * unfold settled. rewrite Hd, Hfh. eauto.
      * simpl. unfold mbind, py_mbind, py_bind. by rewrite H1.
    + destruct (disk w !! p) as [f|] eqn:Hdisk.
      * right. split; [done|]. exists p. destruct Hh as [-> Ho].
        destruct r1 as [s|e]; [|by injection H as <- <- <-].
        destruct (fetch_all mcar idxs (set_file_handle f self) w1)
          as [[r2 self2] w2] eqn:H2.
        assert (opened w2 = opened w1) as Ho2.
        { eapply (fetch_all_settled idxs _ w1 r2 self2 w2 Hpure); [|exact H2].
          unfold settled. simpl. rewrite Hd. eauto. }
        destruct r2; injection H as <- <- <-; congruence.
      * left. destruct Hh as (-> & -> & ->). by injection H as <- <- <-.
Qed.

(** C7. A fetch leaves every attribute but the file handle as it was.
    In memory it changes nothing at all.  On file, a handle that is set
    is kept and no file is opened; an unset handle is assigned the file
    opened by this fetch; every later fetch reuses the handle it finds,
    opening nothing; and no run of fetches opens the file more than once.
    The stored series stay untouched provided the corruption routine
    leaves its argument alone. *)
Theorem fetch_touches_only_file_handle idx self w r self' w' :
  mcar_pure mcar →
  fetch_data mcar idx self w = (r, self', w') →
  (rate self' = rate self
   ∧ data (super self') = data (super self)
   ∧ return_labels (super self') = return_labels (super self)
   ∧ file_type (super self') = file_type (super self)
   ∧ X (super self') = X (super self)
   ∧ y (super self') = y (super self))
  ∧ match data (super self) with
    | DataDict _ => self' = self ∧ opened w' = opened w
    | DataPath p =>
        match file_handle (super self) with
        | Some h => self' = self ∧ opened w' = opened w
        | None =>
            match disk w !! p with
            | Some f =>
                file_handle (super self') = Some f
                ∧ opened w' = p :: opened w
            | None => self' = self ∧ opened w' = opened w
            end
        end
    end
  ∧ (∀ idxs rs self'' w'',
       settled self' →
       fetch_all mcar idxs self' w' = (rs, self'', w'') →
       self'' = self' ∧ opened w'' = opened w')
  ∧ (∀ idxs rs self'' w'',
       fetch_all mcar idxs self w = (rs, self'', w'') →
       opened w'' = opened w
       ∨ file_handle (super self) = None ∧ ∃ p, opened w'' = p :: opened w).
Proof.
  intros Hpure H.
  pose proof (fetch_data_frame _ _ _ _ _ _ H) as (Hr & Hd & Hrl & Hft & Hy & _).
  split_and!; try done.
  - destruct (data (super self)) as [d|p] eqn:Hdata.
    + by destruct (fetch_array_self _ _ _ _ _ _ _ Hpure Hdata H) as [-> _].
    + by destruct (fetch_file_self _ _ _ _ _ _ _ Hdata H) as [-> _].
  - destruct (data (super self)) as [d|p] eqn:Hdata.
    + by eapply fetch_array_self.
    + destruct (fetch_file_self _ _ _ _ _ _ _ Hdata H) as [_ Hh].
      destruct (file_handle (super self)); [done|].
      destruct (disk w !! p).
      * by destruct Hh as [-> ?].
      * by destruct Hh as (-> & -> & _).
  - intros idxs rs self'' w'' Hs Hall. by eapply fetch_all_settled.
  - intros idxs rs self'' w'' Hall. by eapply fetch_all_opens_once.
Qed.

(** ** Failures *)


End AdapterProofs.

(** ** The reference corruptor meets the adapter's expectations,
    whatever the draw *)

Section ReferenceCorruptor.

Context {G : Type}.
Variable draw : list nat -> nat -> G -> list nat * G.

Lemma mcar_drawing_pure : mcar_pure (mcar_drawing draw).
Proof.
  intros Xv r g res after g'. unfold mcar_drawing.
  destruct (is_float _); [|by intros [= _ <- _]].
  destruct (sample_count _ r) as [k|]; [|by intros [= _ <- _]].
  destruct (draw _ k g). by intros [= _ <- _].
Qed.

Lemma mcar_drawing_intact_of_input : mcar_intact_of_input (mcar_drawing draw).
Proof.
  intros Xv r1 r2 g1 g2 q1 q2 a1 a2 g1' g2'. unfold mcar_drawing.
  destruct (is_float _); [|done].
  destruct (sample_count _ r1) as [k1|]; [|done].
  destruct (sample_count _ r2) as [k2|]; [|done].
  destruct (draw _ k1 g1), (draw _ k2 g2).
  by intros [= <- _ _] [= <- _ _].
Qed.

Lemma mcar_drawing_keeps_shape : mcar_keeps_shape (mcar_drawing draw).
Proof.
  intros Xv r g xi xc mm im after g'. unfold mcar_drawing.
  destruct (is_float _); [|done].
  destruct (sample_count _ r) as [k|]; [|done].
  destruct (draw _ k g). by intros [= <- <- <- <- _ _].
Qed.






End ReferenceCorruptor.

Lemma mcar_ref_pure : mcar_pure mcar_ref.
Proof. apply mcar_drawing_pure. Qed.

Lemma mcar_ref_intact_of_input : mcar_intact_of_input mcar_ref.
Proof. apply mcar_drawing_intact_of_input. Qed.

Lemma mcar_ref_keeps_shape : mcar_keeps_shape mcar_ref.
Proof. apply mcar_drawing_keeps_shape. Qed.


(** ** The theorems at work on the small dataset *)

Lemma demo_in_memory_init :
  __init__ (DataDict demo_dict) true "h5py" demo_rate = Ok demo_in_memory.
Proof. vm_compute. reflexivity. Qed.

Lemma demo_on_file_init :
  __init__ (DataPath demo_path) true "h5py" demo_rate = Ok demo_on_file.
Proof. reflexivity. Qed.

Lemma demo_in_memory_loaded : loaded demo_in_memory.
Proof. exact (init_loaded _ _ _ _ _ demo_in_memory_init). Qed.

(** Fetching series 0 in memory returns the expected six fields. *)
Lemma fetch_fields_in_order_witness :
  ∃ self' w',
    fetch_data mcar_ref 0 demo_in_memory demo_world = (Ok demo_sample_0, self', w').
Proof.
  apply (fetch_fields_in_order mcar_ref 0 demo_in_memory demo_world demo_sample_0).
  eexists _, _, _, _, _, _, _.
  split; [vm_compute; reflexivity|].
  split; [vm_compute; reflexivity|].
  split; [vm_compute; reflexivity|].
  split; [vm_compute; reflexivity|].
  vm_compute. eexists. split; reflexivity.
Defined.

Lemma sample_length_witness :
  ∃ s self' w',
    fetch_data mcar_ref 0 demo_in_memory demo_world = (Ok s, self', w')
    ∧ length s = 6%nat.
Proof.
  eexists _, _, _. split; [vm_compute; reflexivity|].
  eapply (sample_length mcar_ref 0 demo_in_memory demo_world);
    [exact demo_in_memory_loaded | vm_compute; reflexivity].
Defined.


(** Series 1 in memory and on file, with generators in different states. *)
Lemma same_original_in_both_modes_witness :
  ∃ sA dsA' wA' sF dsF' wF',
    fetch_data mcar_ref 1 demo_in_memory (mk_world 7%nat ∅ []) = (Ok sA, dsA', wA')
    ∧ fetch_data mcar_ref 1 demo_on_file demo_world = (Ok sF, dsF', wF')
    ∧ ∃ X_intact, sA !! 1%nat = Some X_intact ∧ sF !! 1%nat = Some X_intact.
Proof.
  eexists _, _, _, _, _, _.
  split; [vm_compute; reflexivity|]. split; [vm_compute; reflexivity|].
  eapply (same_original_in_both_modes mcar_ref demo_dict demo_path)
    with (idx := 1) (wA := mk_world 7%nat ∅ []) (wF := demo_world);
    [ exact mcar_ref_intact_of_input
    | exact demo_in_memory_init
    | exact demo_on_file_init
    | vm_compute; reflexivity
    | vm_compute; reflexivity
    | vm_compute; reflexivity ].
Defined.

(** Two fetches of series 0 in a row: one original series, two different
    corrupted series. *)
Lemma refetch_same_original_witness :
  ∃ s1 self1 w1 s2 self2 w2,
    fetch_data mcar_ref 0 demo_in_memory demo_world = (Ok s1, self1, w1)
    ∧ fetch_data mcar_ref 0 self1 w1 = (Ok s2, self2, w2)
    ∧ (∃ X_intact, s1 !! 1%nat = Some X_intact ∧ s2 !! 1%nat = Some X_intact)
    ∧ s1 !! 2%nat ≠ s2 !! 2%nat.
Proof.
  eexists _, _, _, _, _, _.
  split; [vm_compute; reflexivity|]. split; [vm_compute; reflexivity|].
  split.
  - eapply (refetch_same_original mcar_ref 0 demo_in_memory demo_world);
      [ exact mcar_ref_pure | exact mcar_ref_intact_of_input
      | vm_compute; reflexivity | vm_compute; reflexivity ].
  - intros H. vm_compute in H. discriminate H.
Defined.

Lemma sample_dtypes_witness :
  ∃ s self' w',
    fetch_data mcar_ref 1 demo_on_file demo_world = (Ok s, self', w')
    ∧ (∀ k, (1 ≤ k ≤ 4)%nat →
            ∃ t, s !! k = Some t ∧ torch.dtype_of t = float32)
    ∧ (∀ l, s !! 5%nat = Some l → torch.dtype_of l = torch.long).
Proof.
  eexists _, _, _. split; [vm_compute; reflexivity|].
  eapply (sample_dtypes mcar_ref 1 demo_on_file demo_world).
  vm_compute. reflexivity.
Defined.

(** The first fetch on file opens the file and keeps the handle; the
    fetches that follow open nothing. *)
Lemma fetch_touches_only_file_handle_witness :
  ∃ r self' w',
    fetch_data mcar_ref 0 demo_on_file demo_world = (r, self', w')
    ∧ file_handle (super self') = Some demo_dict
    ∧ opened w' = [demo_path]
    ∧ ∀ idxs rs self'' w'',
        fetch_all mcar_ref idxs self' w' = (rs, self'', w'') →
        self'' = self' ∧ opened w'' = [demo_path].
Proof.
  destruct (fetch_data mcar_ref 0 demo_on_file demo_world) as [[r self'] w'] eqn:E.
  exists r, self', w'. split; [reflexivity|].
  destruct (fetch_touches_only_file_handle mcar_ref 0 demo_on_file demo_world
              r self' w' mcar_ref_pure E) as ((_ & Hd & _) & Hh & Hlater & _).
  change (file_handle (super self') = Some demo_dict
          ∧ opened w' = [demo_path]) in Hh.
  destruct Hh as [Hh Ho]. split; [exact Hh|]. split; [exact Ho|].
  intros idxs rs self'' w'' Hall. rewrite <- Ho.
  apply (Hlater idxs rs self'' w''); [|exact Hall].
  unfold settled. rewrite Hd, Hh. simpl. eauto.
Defined.



(** A negative index is returned as given. *)
Lemma first_field_is_index_witness :
  ∃ s self' w',
    fetch_data mcar_ref (-1) demo_on_file demo_world = (Ok s, self', w')
    ∧ s !! 0%nat = Some (torch.mk_Tensor int64 [] [SInt (-1)]).
Proof.
  eexists _, _, _. split; [vm_compute; reflexivity|].
  eapply (first_field_is_index mcar_ref (-1) demo_on_file demo_world).
  vm_compute. reflexivity.
Defined.

(** * Further properties of the fetches *)

(** ** Indexing and casts *)

Lemma normalize_index_wrap idx n :
  - Z.of_nat n ≤ idx < 0 →
  normalize_index (idx + Z.of_nat n) n = normalize_index idx n.
Proof.
  intros Hi. unfold normalize_index.
  destruct (Z.ltb_spec (idx + Z.of_nat n) 0), (Z.ltb_spec idx 0); try lia.
  done.
Qed.

Lemma getitem_wrap t idx n rest :
  torch.shape t = n :: rest → - Z.of_nat n ≤ idx < 0 →
  torch.getitem t (idx + Z.of_nat n) = torch.getitem t idx.
Proof.
  intros Hs Hi. unfold torch.getitem. by rewrite Hs, normalize_index_wrap.
Qed.

Lemma np_getitem_wrap a idx n rest :
  np_shape a = n :: rest → - Z.of_nat n ≤ idx < 0 →
  np_getitem a (idx + Z.of_nat n) = np_getitem a idx.
Proof.
  intros Hs Hi. unfold np_getitem. by rewrite Hs, normalize_index_wrap.
Qed.

Lemma read_series_wrap st idx n rest :
  stored_shape st = Some (n :: rest) → - Z.of_nat n ≤ idx < 0 →
  read_series st (idx + Z.of_nat n) = read_series st idx.
Proof.
  intros Hs Hi. destruct st as [Xs ys|f]; simpl in *.
  - injection Hs as Hs. by eapply getitem_wrap.
  - destruct (f !! "X"%string) as [a|]; [|done]. injection Hs as Hs.
    by erewrite np_getitem_wrap.
Qed.

Lemma read_label_wrap st idx n :
  (∀ sh, stored_label_shape st = Some sh → ∃ rest, sh = n :: rest) →
  - Z.of_nat n ≤ idx < 0 →
  read_label st (idx + Z.of_nat n) = read_label st idx.
Proof.
  intros Hs Hi. destruct st as [Xs [yt|]|f]; simpl in *; try done.
  - destruct (Hs _ eq_refl) as [rest Hy]. by erewrite getitem_wrap.
  - destruct (f !! "y"%string) as [a|]; [|done]. simpl in *.
    destruct (Hs _ eq_refl) as [rest Hy]. by erewrite np_getitem_wrap.
Qed.

Lemma read_series_shape st idx Xv n rest :
  stored_shape st = Some (n :: rest) → read_series st idx = Ok Xv →
  torch.shape Xv = rest.
Proof.
  destruct st as [Xs ys|f]; simpl.
  - intros [= Hs]. unfold torch.getitem. rewrite Hs.
    destruct (normalize_index idx n); [|done]. by intros [= <-].
  - destruct (f !! "X"%string) as [a|]; [|done]. intros [= Hs].
    unfold np_getitem. rewrite Hs.
    destruct (normalize_index idx n); [|done].
    unfold torch.from_numpy. simpl. destruct rest; [done|]. by intros [= <-].
Qed.






Section FetchProperties.

Context {G : Type}.
Variable mcar : Tensor -> spec_float -> G -> result mcar_result * list scalar * G.

(** X1. A fetch draws from the generator exactly once, and only after the
    series was read: when opening the file or reading the series fails,
    the fetch raises that error and leaves the generator and the stored
    series as they were; otherwise the generator is left where the one
    call of the corruption routine left it, whatever happens afterwards. *)
Theorem generator_advances_with_corruption idx self w r self' w' :
  fetch_data mcar idx self w = (r, self', w') →
  match storage_of self w with
  | Raise e => r = Raise e ∧ rng w' = rng w ∧ X (super self') = X (super self)
  | Ok st =>
      match read_series st idx with
      | Raise e => r = Raise e ∧ rng w' = rng w ∧ X (super self') = X (super self)
      | Ok Xv => rng w' = (mcar Xv (rate self) (rng w)).2
      end
  end.
Proof.
  intros H. py_inv H.
  all: unfold storage_of, current_file, _open_file_handle; use_eqs; simpl; use_eqs.
  all: done.
Qed.

(** X2. With return_labels false the label source is never read: two
    datasets, in memory or on file, that hold the same series under the
    index and share the rate and the generator state return the same
    sample or raise the same error, whatever their labels. *)
Theorem labels_not_read_when_disabled idx self1 w1 self2 w2 st1 st2 :
  return_labels (super self1) = false →
  return_labels (super self2) = false →
  rate self1 = rate self2 →
  rng w1 = rng w2 →
  storage_of self1 w1 = Ok st1 →
  storage_of self2 w2 = Ok st2 →
  read_series st1 idx = read_series st2 idx →
  (fetch_data mcar idx self1 w1).1.1 = (fetch_data mcar idx self2 w2).1.1.
Proof.
  intros Hl1 Hl2 Hrate Hrng Hs1 Hs2 HX.
  rewrite !fetch_data_refines. unfold fetch_spec.
  rewrite Hs1, Hs2, Hl1, Hl2, Hrate, Hrng. simpl. by rewrite HX.
Qed.

(** X3. Opening the file lazily does not change what is fetched: a first
    fetch on a dataset whose handle is unset returns what a fetch on the
    same dataset with the handle already set to that file returns, and
    leaves the same object and generator; only the log of opened files
    tells them apart. *)
Theorem lazy_open_is_transparent idx self w p f :
  data (super self) = DataPath p →
  file_handle (super self) = None →
  disk w !! p = Some f →
  (fetch_data mcar idx self w).1 = (fetch_data mcar idx (set_file_handle f self) w).1
  ∧ rng (fetch_data mcar idx self w).2
    = rng (fetch_data mcar idx (set_file_handle f self) w).2
  ∧ opened (fetch_data mcar idx self w).2
    = p :: opened (fetch_data mcar idx (set_file_handle f self) w).2.
Proof.
  intros Hd Hfh Hdisk. py_unfold. cbv beta. simpl.
  rewrite Hd, Hfh. simpl. rewrite Hd, Hdisk. simpl.
  py_cases.
Qed.


(** X5. The four tensors of a returned sample all have the shape of one
    stored series, the shape of the stored data without its first
    dimension, provided the corruption routine keeps the shape of its
    argument. *)
Theorem fields_have_sample_shape idx self w s self' w' st n rest :
  mcar_keeps_shape mcar →
  storage_of self w = Ok st →
  stored_shape st = Some (n :: rest) →
  fetch_data mcar idx self w = (Ok s, self', w') →
  ∀ k, (1 ≤ k ≤ 4)%nat → ∃ t, s !! k = Some t ∧ torch.shape t = rest.
Proof.
  intros Hshape Hst Hsh H.
  apply fetch_data_Ok in H as (st' & Xv & q & after & i & lbl & Hst' & HX & Hm & _ & _ & ->).
  rewrite Hst in Hst'. injection Hst' as <-.
  destruct q as [[[xi xc] mm] im].
  apply Hshape in Hm as (Hi & Hc & Hmm & Him).
  rewrite (read_series_shape _ _ _ _ _ Hsh HX) in *.
  intros k Hk.
  destruct k as [|[|[|[|[|k]]]]]; try lia; simpl; eexists;
    (split; [reflexivity|]); by rewrite to_shape.
Qed.

(** X6. A negative index reads the series it wraps to, and is echoed as
    given: where the storage holds n series and labels, a fetch of idx in
    [-n, 0) that returns s is matched by a fetch of idx + n that returns
    the same fields, except that the first holds idx + n where s holds
    idx. *)
Theorem negative_index_echoed idx self w s self' w' st n rest :
  storage_of self w = Ok st →
  stored_shape st = Some (n :: rest) →
  (∀ sh, stored_label_shape st = Some sh → ∃ rest', sh = n :: rest') →
  - Z.of_nat n ≤ idx < 0 →
  Z.of_nat n ≤ 2 ^ 63 →
  fetch_data mcar idx self w = (Ok s, self', w') →
  s !! 0%nat = Some (torch.mk_Tensor int64 [] [SInt idx])
  ∧ (fetch_data mcar (idx + Z.of_nat n) self w).1.1
    = Ok (torch.mk_Tensor int64 [] [SInt (idx + Z.of_nat n)] :: drop 1 s).
Proof.
  intros Hst Hsh Hlsh Hi Hn H.
  apply fetch_data_Ok in H as (st' & Xv & q & after & i & lbl & Hst' & HX & Hm & Hti & Hl & ->).
  rewrite Hst in Hst'. injection Hst' as <-.
  destruct q as [[[xi xc] mm] im]. split.
  - simpl. by rewrite (tensor_Ok _ _ Hti).
  - rewrite fetch_data_refines. unfold fetch_spec.
    rewrite Hst. simpl.
    rewrite (read_series_wrap _ _ _ _ Hsh Hi), HX. simpl. rewrite Hm. simpl.
    assert (torch.tensor (idx + Z.of_nat n)
            = Ok (torch.mk_Tensor int64 [] [SInt (idx + Z.of_nat n)])) as ->.
    { unfold torch.tensor, int64_min, int64_max.
      destruct (Z.leb_spec (- 2 ^ 63) (idx + Z.of_nat n)),
        (Z.leb_spec (idx + Z.of_nat n) (2 ^ 63 - 1)); simpl; try done; lia. }
    simpl. unfold label_part in *.
    rewrite (read_label_wrap _ _ _ Hlsh Hi), Hl. done.
Qed.

(** ** No state but the generator's *)

(** A fetch leaves the storage source, the rate and the label switch as
    they were, whatever its outcome. *)
Lemma fetch_data_keeps_storage idx self w r self' w' :
  mcar_pure mcar →
  fetch_data mcar idx self w = (r, self', w') →
  storage_of self' w' = storage_of self w
  ∧ rate self' = rate self
  ∧ return_labels (super self') = return_labels (super self).
Proof.
  intros Hpure H.
  pose proof (fetch_data_frame _ _ _ _ _ _ _ H) as (Hr & _ & Hrl & _ & _ & Hdisk).
  split; [|done].
  destruct (data (super self)) as [d|p] eqn:Hd.
  - destruct (fetch_array_self _ _ _ _ _ _ _ _ Hpure Hd H) as [-> _].
    unfold storage_of. by rewrite Hd.
  - destruct (fetch_file_self _ _ _ _ _ _ _ _ Hd H) as [_ Hh].
    unfold storage_of, current_file, _open_file_handle.
    destruct (file_handle (super self)) as [h|] eqn:Hfh.
    + destruct Hh as [-> _]. by rewrite Hd, Hfh.
    + rewrite Hd. destruct (disk w !! p) as [f|] eqn:Hf.
      * destruct Hh as [-> _]. simpl. by rewrite Hd.
      * destruct Hh as (-> & -> & _). by rewrite Hd, Hfh, Hf.
Qed.

Lemma fetch_all_keeps_storage idxs self w rs self' w' :
  mcar_pure mcar →
  fetch_all mcar idxs self w = (rs, self', w') →
  storage_of self' w' = storage_of self w
  ∧ rate self' = rate self
  ∧ return_labels (super self') = return_labels (super self).
Proof.
  intros Hpure. revert self w rs self' w'.
  induction idxs as [|idx idxs IH]; intros self w rs self' w' H; simpl in H.
  - by injection H as <- <- <-.
  - unfold mbind, py_mbind, py_bind in H.
    destruct (fetch_data mcar idx self w) as [[r1 self1] w1] eqn:H1.
    destruct (fetch_data_keeps_storage _ _ _ _ _ _ Hpure H1) as (Hs1 & Hr1 & Hl1).
    destruct r1 as [s|e]; [|by injection H as <- <- <-].
    destruct (fetch_all mcar idxs self1 w1) as [[r2 self2] w2] eqn:H2.
    destruct (IH _ _ _ _ _ H2) as (Hs2 & Hr2 & Hl2).
    destruct r2; injection H as <- <- <-; split_and!; congruence.
Qed.

(** X7. The adapter keeps no state of its own between fetches: after any
    run of fetches, whatever their outcomes, a fetch returns or raises
    what it would on the object as it was before the run, given the
    generator state the run has reached, provided the corruption routine
    leaves its argument alone. *)
Theorem history_only_through_generator idxs self w rs self' w' idx :
  mcar_pure mcar →
  fetch_all mcar idxs self w = (rs, self', w') →
  (fetch_data mcar idx self' w').1.1
  = (fetch_data mcar idx self (mk_world (rng w') (disk w) (opened w))).1.1.
Proof.
  intros Hpure H.
  destruct (fetch_all_keeps_storage _ _ _ _ _ _ Hpure H) as (Hs & Hr & Hl).
  rewrite !fetch_data_refines. unfold fetch_spec.
  rewrite Hs, Hr, Hl.
  replace (storage_of self (mk_world (rng w') (disk w) (opened w)))
    with (storage_of self w); [done|].
  unfold storage_of, current_file, _open_file_handle. simpl.
  destruct (data (super self)); [done|].
  destruct (file_handle (super self)); [done|]. by destruct (disk w !! _).
Qed.



(** A run of fetches leaves the rate as it was, whatever the corruption
    routine does. *)
Lemma fetch_all_rate idxs self w rs self' w' :
  fetch_all mcar idxs self w = (rs, self', w') → rate self' = rate self.
Proof.
  revert self w rs self' w'.
  induction idxs as [|idx idxs IH]; intros self w rs self' w' H; simpl in H.
  - by injection H as <- <- <-.
  - unfold mbind, py_mbind, py_bind in H.
    destruct (fetch_data mcar idx self w) as [[r1 self1] w1] eqn:H1.
    pose proof (fetch_data_frame _ _ _ _ _ _ _ H1) as (Hr1 & _).
    destruct r1 as [s|e]; [|by injection H as <- <- <-].
    destruct (fetch_all mcar idxs self1 w1) as [[r2 self2] w2] eqn:H2.
    pose proof (IH _ _ _ _ _ H2) as Hr2.
    destruct r2; injection H as <- <- <-; congruence.
Qed.

(** X10. The rate given to the constructor is the rate every fetch
    passes to the corruption routine, however many fetches came before:
    a returned sample holds the float32 casts of what the routine
    returned at that rate. *)
Theorem constructor_rate_reaches_corruption d rl ft r self0 idxs w rs self w1
    idx s self' w' :
  __init__ d rl ft r = Ok self0 →
  fetch_all mcar idxs self0 w = (rs, self, w1) →
  fetch_data mcar idx self w1 = (Ok s, self', w') →
  ∃ Xv X_intact Xc missing_mask indicating_mask after,
    mcar Xv r (rng w1)
    = (Ok (X_intact, Xc, missing_mask, indicating_mask), after, rng w')
    ∧ take 4 (drop 1 s)
      = [ torch.to float32 X_intact;
          torch.to float32 Xc;
          torch.to float32 missing_mask;
          torch.to float32 indicating_mask ].
Proof.
  intros Hinit Hall H.
  assert (rate self0 = r) as Hr0.
  { unfold __init__ in Hinit.
    destruct (BaseDataset__init__ d rl ft); [by injection Hinit as <- | done]. }
  pose proof (fetch_all_rate _ _ _ _ _ _ Hall) as Hr.
  apply fetch_data_Ok in H as (st & Xv & q & after & i & lbl & _ & _ & Hm & _ & _ & ->).
  destruct q as [[[xi xc] mm] im].
  exists Xv, xi, xc, mm, im, after. split; [congruence|done].
Qed.

(** X11. A file without an "X" entry answers no index: every fetch
    raises the KeyError of the lookup, after the file was opened and
    before anything is drawn from the generator. *)
Theorem file_without_series_raises idx self w p f r self' w' :
  data (super self) = DataPath p →
  current_file self w = Ok f →
  f !! "X"%string = None →
  fetch_data mcar idx self w = (r, self', w') →
  r = Raise KeyError
  ∧ file_handle (super self') = Some f
  ∧ rng w' = rng w.
Proof.
  intros Hd Hf HX H. unfold current_file, _open_file_handle in Hf.
  simpl in Hf.
  unfold fetch_data in H. rewrite Hd in *. revert Hf.
  py_inv H; use_eqs; intros Hf; simplify_eq/=; split_and!; congruence.
Qed.

End FetchProperties.

(** ** The further properties on the small dataset *)

(** An index past the end of the file's series: IndexError, nothing drawn. *)
Lemma generator_advances_with_corruption_witness :
  ∃ r self' w',
    fetch_data mcar_ref 5 demo_on_file demo_world = (r, self', w')
    ∧ r = Raise IndexError
    ∧ rng w' = rng demo_world
    ∧ X (super self') = X (super demo_on_file).
Proof.
  destruct (fetch_data mcar_ref 5 demo_on_file demo_world) as [[r self'] w'] eqn:E.
  exists r, self', w'. split; [reflexivity|].
  exact (generator_advances_with_corruption mcar_ref 5 demo_on_file demo_world
           r self' w' E).
Defined.

(** Labels off: the dataset in memory, whose labels are one short, and
    the dataset on file return the same sample for the last series. *)
Lemma labels_not_read_when_disabled_witness :
  (fetch_data mcar_ref 1 demo_quiet_in_memory demo_world).1.1
  = (fetch_data mcar_ref 1 demo_quiet_on_file demo_world).1.1.
Proof.
  eapply (labels_not_read_when_disabled mcar_ref 1
            demo_quiet_in_memory demo_world demo_quiet_on_file demo_world);
    [ reflexivity | reflexivity | reflexivity | reflexivity
    | vm_compute; reflexivity | vm_compute; reflexivity
    | vm_compute; reflexivity ].
Defined.

Lemma lazy_open_is_transparent_witness :
  (fetch_data mcar_ref 0 demo_on_file demo_world).1
  = (fetch_data mcar_ref 0 demo_opened demo_world).1
  ∧ rng (fetch_data mcar_ref 0 demo_on_file demo_world).2
    = rng (fetch_data mcar_ref 0 demo_opened demo_world).2
  ∧ opened (fetch_data mcar_ref 0 demo_on_file demo_world).2
    = demo_path :: opened (fetch_data mcar_ref 0 demo_opened demo_world).2.
Proof.
  apply (lazy_open_is_transparent mcar_ref 0 demo_on_file demo_world
           demo_path demo_dict);
    [ reflexivity | reflexivity | vm_compute; reflexivity ].
Defined.


Lemma fields_have_sample_shape_witness :
  ∃ s self' w',
    fetch_data mcar_ref 0 demo_in_memory demo_world = (Ok s, self', w')
    ∧ ∀ k, (1 ≤ k ≤ 4)%nat →
           ∃ t, s !! k = Some t ∧ torch.shape t = [2; 3]%nat.
Proof.
  eexists _, _, _. split; [vm_compute; reflexivity|].
  eapply (fields_have_sample_shape mcar_ref 0 demo_in_memory demo_world)
    with (st := InMemory demo_X_tensor (Some demo_y_tensor)) (n := 2%nat);
    [ exact mcar_ref_keeps_shape | reflexivity | reflexivity
    | vm_compute; reflexivity ].
Defined.

(** The last of two series, asked for as -1 and as 1. *)
Lemma negative_index_echoed_witness :
  ∃ s self' w',
    fetch_data mcar_ref (-1) demo_on_file demo_world = (Ok s, self', w')
    ∧ s !! 0%nat = Some (torch.mk_Tensor int64 [] [SInt (-1)])
    ∧ (fetch_data mcar_ref (-1 + Z.of_nat 2) demo_on_file demo_world).1.1
      = Ok (torch.mk_Tensor int64 [] [SInt (-1 + Z.of_nat 2)] :: drop 1 s).
Proof.
  eexists _, _, _. split; [vm_compute; reflexivity|].
  eapply (negative_index_echoed mcar_ref (-1) demo_on_file demo_world)
    with (st := OnFile demo_dict) (n := 2%nat) (rest := [2; 3]%nat).
  - vm_compute. reflexivity.
  - vm_compute. reflexivity.
  - intros sh Hsh. vm_compute in Hsh. injection Hsh as <-. by exists [].
  - lia.
  - vm_compute. discriminate.
  - vm_compute. reflexivity.
Defined.

(** After two fetches on file, a third returns what a first one would
    with the generator two draws further. *)
Lemma history_only_through_generator_witness :
  ∃ rs self' w',
    fetch_all mcar_ref [0; 1] demo_on_file demo_world = (rs, self', w')
    ∧ rng w' = 2%nat
    ∧ (fetch_data mcar_ref 0 self' w').1.1
      = (fetch_data mcar_ref 0 demo_on_file
           (mk_world (rng w') (disk demo_world) (opened demo_world))).1.1.
Proof.
  destruct (fetch_all mcar_ref [0; 1] demo_on_file demo_world)
    as [[rs self'] w'] eqn:E.
  exists rs, self', w'. split; [reflexivity|]. split.
  - vm_compute in E. by injection E as _ _ <-.
  - exact (history_only_through_generator mcar_ref [0; 1] demo_on_file
             demo_world rs self' w' 0 mcar_ref_pure E).
Defined.



(** Built with the rate 0.2, the dataset still corrupts at 0.2 after a
    fetch. *)
Lemma constructor_rate_reaches_corruption_witness :
  ∃ rs self w1 s self' w',
    __init__ (DataDict demo_dict) true "h5py" demo_rate = Ok demo_in_memory
    ∧ fetch_all mcar_ref [1] demo_in_memory demo_world = (rs, self, w1)
    ∧ fetch_data mcar_ref 0 self w1 = (Ok s, self', w')
    ∧ ∃ Xv X_intact Xc missing_mask indicating_mask after,
        mcar_ref Xv demo_rate (rng w1)
        = (Ok (X_intact, Xc, missing_mask, indicating_mask), after, rng w')
        ∧ take 4 (drop 1 s)
          = [ torch.to float32 X_intact;
              torch.to float32 Xc;
              torch.to float32 missing_mask;
              torch.to float32 indicating_mask ].
Proof.
  destruct (fetch_all mcar_ref [1] demo_in_memory demo_world)
    as [[rs self] w1] eqn:Eall.
  destruct (fetch_data mcar_ref 0 self w1) as [[r self'] w'] eqn:E.
  assert (∃ s, r = Ok s) as [s ->].
  { vm_compute in Eall. injection Eall as <- <- <-.
    vm_compute in E. injection E as <- _ _. eauto. }
  exists rs, self, w1, s, self', w'.
  split; [exact demo_in_memory_init|]. split; [reflexivity|].
  split; [exact E|].
  exact (constructor_rate_reaches_corruption mcar_ref (DataDict demo_dict) true
           "h5py"%string demo_rate demo_in_memory [1] demo_world rs self w1
           0 s self' w' demo_in_memory_init Eall E).
Defined.

(** The first fetch on a file without series opens it and raises. *)
Lemma file_without_series_raises_witness :
  ∃ r self' w',
    fetch_data mcar_ref 0 demo_on_file demo_world_without_series = (r, self', w')
    ∧ r = Raise KeyError
    ∧ file_handle (super self') = Some {[ "y"%string := demo_y ]}
    ∧ rng w' = rng demo_world_without_series.
Proof.
  destruct (fetch_data mcar_ref 0 demo_on_file demo_world_without_series)
    as [[r self'] w'] eqn:E.
  exists r, self', w'. split; [reflexivity|].
  apply (file_without_series_raises mcar_ref 0 demo_on_file
           demo_world_without_series demo_path {[ "y"%string := demo_y ]}
           r self' w');
    [ reflexivity | vm_compute; reflexivity | vm_compute; reflexivity | exact E ].
Defined.
